(** * A shallow embedding of [ci/get_hdf5.py]

    The script downloads an HDF5 source archive, unpacks it and drives
    autotools or CMake.  Its effects are modelled by a monad that reads a
    [world] (the environment, the platform and the answers of the outside
    programs), threads a [state] (working directory, filesystem, counter of
    temporary directories) and records a log of [event]s. *)

From Stdlib Require Import String Ascii List ZArith Bool Lia.
Import ListNotations.
Open Scope string_scope.

(** ** Strings and paths *)

(** [str.split(sep)] of Python for a one-character separator: the result
    is never empty, ["".split(".") == [""]]. *)
Fixpoint split_on (c : ascii) (s : string) : list string :=
  match s with
  | EmptyString => [""]
  | String a rest =>
      let r := split_on c rest in
      if Ascii.eqb a c then "" :: r
      else match r with
           | h :: t => String a h :: t
           | [] => [String a ""]
           end
  end.

Definition last_char (s : string) : option ascii :=
  match String.get (String.length s - 1) s with
  | Some a => if Nat.eqb (String.length s) 0 then None else Some a
  | None => None
  end.

Definition is_sep (win : bool) (a : ascii) : bool :=
  if win then Ascii.eqb a "\"%char || Ascii.eqb a "/"%char
  else Ascii.eqb a "/"%char.

Definition starts_with_sep (win : bool) (s : string) : bool :=
  match s with
  | String a _ => is_sep win a
  | EmptyString => false
  end.

Definition ends_with_sep (win : bool) (s : string) : bool :=
  match last_char s with
  | Some a => is_sep win a
  | None => false
  end.

(** [sys.platform.startswith('win')]. *)
Definition is_win (platform : string) : bool := String.prefix "win" platform.

(** One step of [os.path.join]: [posixpath.join] off Windows, and on
    Windows [ntpath.join] without its drive-letter handling (a component
    starting with a separator restarts the path, the separator added is a
    backslash). *)
Definition join2 (platform : string) (a b : string) : string :=
  let win := is_win platform in
  if starts_with_sep win b then b
  else if String.eqb a "" || ends_with_sep win a then a ++ b
  else a ++ (if win then "\" else "/") ++ b.

Definition join_str (platform : string) (a : string) (bs : list string) : string :=
  fold_left (join2 platform) bs a.

(** ** Python values and exceptions *)

Inductive pyval := PStr (s : string) | PNone | PBool (b : bool).

Definition py_of_opt (o : option string) : pyval :=
  match o with Some s => PStr s | None => PNone end.

(** [str(v)], as [str.format] renders a value. *)
Definition py_str (v : pyval) : string :=
  match v with
  | PStr s => s
  | PNone => "None"
  | PBool b => if b then "True" else "False"
  end.

Definition py_truthy (v : pyval) : bool :=
  match v with
  | PStr s => negb (String.eqb s "")
  | PNone => false
  | PBool b => b
  end.

Definition opt_of_py (v : pyval) : option string :=
  match v with PNone => None | v => Some (py_str v) end.

Inductive exn :=
| TypeError
| KeyError
| RuntimeError
| SystemExit (code : Z)
| CalledProcessError (returncode : Z) (cmd : list string)
| FileNotFoundError          (* a program run without a shell cannot be started *)
| ReadError                  (* tarfile.ReadError: not a gzip'd tar archive *)
| BadZipFile.                (* zipfile.BadZipFile: not a zip archive *)

(** ** Format templates

    A [str.format] template is its literal text cut at the replacement
    fields; [format] fills the fields from keyword arguments (every call of
    the script supplies each field its template names). *)

Inductive piece := Lit (s : string) | Field (name : string).
Definition template := list piece.

Fixpoint kw_lookup (kw : list (string * string)) (n : string) : string :=
  match kw with
  | [] => ""
  | (k, v) :: r => if String.eqb k n then v else kw_lookup r n
  end.

Definition format (t : template) (kw : list (string * string)) : string :=
  String.concat "" (map (fun p => match p with
                                  | Lit s => s
                                  | Field n => kw_lookup kw n
                                  end) t).

(** ** Module constants *)

Definition HDF5_18_URL : template :=
  [Lit "https://www.hdfgroup.org/ftp/HDF5/releases/hdf5-1.8/hdf5-"; Field "version";
   Lit "/src/"].
Definition HDF5_110_URL : template :=
  [Lit "https://www.hdfgroup.org/ftp/HDF5/releases/hdf5-1.10/hdf5-"; Field "version";
   Lit "/src/"].

(** The archive names are chosen at import time from [sys.platform]. *)
Definition HDF5_18_FILE (platform : string) : template :=
  if is_win platform then app HDF5_18_URL [Lit "hdf5-"; Field "version"; Lit ".zip"]
  else app HDF5_18_URL [Lit "hdf5-"; Field "version"; Lit ".gzip"].
Definition HDF5_110_FILE (platform : string) : template :=
  if is_win platform then app HDF5_110_URL [Lit "hdf5-"; Field "version"; Lit ".zip"]
  else app HDF5_110_URL [Lit "hdf5-"; Field "version"; Lit ".tar.gz"].

Definition CMAKE_CONFIGURE_CMD : list string :=
  ["cmake"; "-DBUILD_SHARED_LIBS:BOOL=ON"; "-DCMAKE_BUILD_TYPE:STRING=RELEASE";
   "-DHDF5_BUILD_CPP_LIB=OFF"; "-DHDF5_BUILD_HL_LIB=ON";
   "-DHDF5_BUILD_TOOLS:BOOL=ON"].
Definition CMAKE_BUILD_CMD : list string := ["cmake"; "--build"].
Definition CMAKE_INSTALL_ARG : list string := ["--target"; "install"; "--config"; "Release"].
Definition CMAKE_INSTALL_PATH_ARG : template :=
  [Lit "-DCMAKE_INSTALL_PREFIX="; Field "install_path"].
Definition CMAKE_HDF5_LIBRARY_PREFIX : list string := ["-DHDF5_EXTERNAL_LIB_PREFIX=h5py_"].
Definition REL_PATH_TO_UNPACKED_DIR : template := [Lit "hdf5-"; Field "version"].
Definition DEFAULT_VERSION : string := "1.8.17".

Definition VSVERSION_TO_GENERATOR (vs : string) : option string :=
  if String.eqb vs "9" then Some "Visual Studio 9 2008"
  else if String.eqb vs "10" then Some "Visual Studio 10 2010"
  else if String.eqb vs "14" then Some "Visual Studio 14 2015"
  else if String.eqb vs "9-64" then Some "Visual Studio 9 2008 Win64"
  else if String.eqb vs "10-64" then Some "Visual Studio 10 2010 Win64"
  else if String.eqb vs "14-64" then Some "Visual Studio 14 2015 Win64"
  else None.

(** ** Pure helpers of the script *)

(** The URL chosen by [download_hdf5]. *)
Definition hdf5_url (platform version : string) : string :=
  if list_eq_dec string_dec (firstn 2 (split_on "." version)) ["1"; "10"]
  then format (HDF5_110_FILE platform) [("version", version)]
  else format (HDF5_18_FILE platform) [("version", version)].

Definition get_unpacked_path (platform version extract_point : string) : string :=
  join_str platform extract_point [format REL_PATH_TO_UNPACKED_DIR [("version", version)]].

Definition get_cmake_install_path (install_path : option string) : string :=
  match install_path with
  | Some p => format CMAKE_INSTALL_PATH_ARG [("install_path", p)]
  | None => " "
  end.

(** Commands are lists of Python values: [get_autotools_cmds] puts
    [install_path] in the list even when it is [None]. *)
Definition get_autotools_cmds (install_path : option string) (with_mpi : bool)
  : list pyval * list (list pyval) :=
  let parallel_args := if with_mpi then [PStr "--enable-parallel"] else [] in
  let cfg_cmd := app [PStr "./configure"; PStr "--prefix"; py_of_opt install_path] parallel_args in
  let build_cmds := [[PStr "make"]; [PStr "make"; PStr "install"]] in
  (cfg_cmd, build_cmds).

Definition get_cmake_cmds (platform version : string) (install_path cmake_generator : option string)
  (use_prefix : bool) (hdf5_extract_path : string) : list pyval * list (list pyval) :=
  let generator_args := match cmake_generator with Some g => ["-G"; g] | None => [] end in
  let prefix_args := if use_prefix then CMAKE_HDF5_LIBRARY_PREFIX else [] in
  let cfg_cmd := (CMAKE_CONFIGURE_CMD ++
                  [get_cmake_install_path install_path;
                   get_unpacked_path platform version hdf5_extract_path]
                  ++ generator_args ++ prefix_args)%list in
  let build_cmd := (CMAKE_BUILD_CMD ++ ["."] ++ CMAKE_INSTALL_ARG)%list in
  (map PStr cfg_cmd, [map PStr build_cmd]).

(** A Python call of [get_cmake_cmds] with positional arguments: it needs
    exactly five, otherwise the call raises [TypeError]. *)
Definition call_get_cmake_cmds (platform : string) (args : list pyval)
  : option (list pyval * list (list pyval)) :=
  match args with
  | [version; install_path; cmake_generator; use_prefix; hdf5_extract_path] =>
      Some (get_cmake_cmds platform (py_str version) (opt_of_py install_path)
              (opt_of_py cmake_generator) (py_truthy use_prefix) (py_str hdf5_extract_path))
  | _ => None
  end.

(** ** The effect monad *)

(** What the script reads from outside: [sys.platform], [os.environ], the
    final status code of each HTTP GET and whether the body served with it is
    an archive of the kind the script unpacks (a zip on Windows, a gzip'd tar
    elsewhere), whether the program of a run without a shell can be started
    (found on [PATH] for a bare name, an existing executable file for a
    path), the exit status and captured output of each subprocess (by
    argument list), and the answers of [glob] and [os.walk]. *)
Record world := mkWorld {
  platform : string;
  environ : string -> option string;
  http_status : string -> Z;
  serves_archive : string -> bool;
  launches : list string -> bool;
  returncode : list string -> Z;
  captured_output : list string -> string;
  glob_result : string -> list string;
  walk_result : string -> list (string * string)
}.

(** The process state: working directory, the paths that exist, and how many
    temporary directories were created so far. *)
Record state := mkState {
  cwd : string;
  fs : string -> bool;
  tmp_count : nat
}.

Inductive event :=
| EPrint (to_stderr : bool) (msg : string)
| EMakedirs (path : string)
| EGet (url : string)            (* requests.get(url, stream=True) *)
| ECopyBody                      (* copyfileobj(r.raw, outfile) *)
| EMkdtemp (path : string)       (* TemporaryDirectory() entered *)
| ERmtree (path : string)        (* TemporaryDirectory() cleaned up *)
| EUnzip (dest : string)         (* ZipFile(..).extractall(dest) *)
| EUntar (dest : string)         (* TarFile(fileobj=GzipFile(..)).extractall(dest) *)
| EChdir (path : string)
| ERun (args : list string) (shell : bool) (dir : string)
| ECopy (src dst : string)
| EWalk (top : string).

Inductive result (A : Type) := Ok (a : A) | Err (e : exn).
Arguments Ok {A} a.
Arguments Err {A} e.

Definition M (A : Type) : Type := world -> state -> result A * state * list event.

Definition ret {A} (a : A) : M A := fun _ s => (Ok a, s, []).
Definition raise {A} (e : exn) : M A := fun _ s => (Err e, s, []).
Definition bind {A B} (m : M A) (f : A -> M B) : M B := fun w s =>
  match m w s with
  | (Ok a, s1, e1) =>
      match f a w s1 with
      | (r, s2, e2) => (r, s2, (e1 ++ e2)%list)
      end
  | (Err x, s1, e1) => (Err x, s1, e1)
  end.

Notation "x <- m ;; k" := (bind m (fun x => k))
  (at level 61, m at next level, right associativity).
Notation "m ;; k" := (bind m (fun _ => k)) (at level 61, right associativity).

Definition res_of {A} (o : result A * state * list event) : result A := fst (fst o).
Definition st_of {A} (o : result A * state * list event) : state := snd (fst o).
Definition evs_of {A} (o : result A * state * list event) : list event := snd o.

(** ** Library calls *)

Definition get_platform : M string := fun w s => (Ok (platform w), s, []).
Definition getenv (k : string) : M (option string) := fun w s => (Ok (environ w k), s, []).
Definition emit (e : event) : M unit := fun _ s => (Ok tt, s, [e]).
Definition print_err (msg : string) : M unit := emit (EPrint true msg).
Definition print_out (msg : string) : M unit := emit (EPrint false msg).

Definition getcwd : M string := fun _ s => (Ok (cwd s), s, []).
Definition chdir (d : string) : M unit := fun _ s =>
  (Ok tt, mkState d (fs s) (tmp_count s), [EChdir d]).
Definition path_exists (p : string) : M bool := fun _ s => (Ok (fs s p), s, []).
(** [q] names a directory above [p]: [p] continues [q] with a path
    separator ([/], and also [\] on Windows). *)
Definition is_parent_of (win : bool) (q p : string) : bool :=
  negb (String.eqb q "") &&
  (String.prefix (q ++ "/") p || (win && String.prefix (q ++ "\") p)).

(** [os.makedirs(p)]: [p] and every missing directory above it exist
    afterwards. *)
Definition makedirs (p : string) : M unit := fun w s =>
  (Ok tt, mkState (cwd s)
            (fun q => String.eqb q p || is_parent_of (is_win (platform w)) q p || fs s q)
            (tmp_count s), [EMakedirs p]).

(** [os.path.join]; a [None] first argument raises [TypeError]. *)
Definition pjoin (a : option string) (bs : list string) : M string :=
  match a with
  | Some a => plat <- get_platform ;; ret (join_str plat a bs)
  | None => raise TypeError
  end.

Definition glob (pattern : string) : M (list string) :=
  fun w s => (Ok (glob_result w pattern), s, []).
Definition copy (src dst : string) : M unit := emit (ECopy src dst).
Definition walk (top : string) : M (list (string * string)) :=
  fun w s => (Ok (walk_result w top), s, [EWalk top]).

Fixpoint for_each {A} (l : list A) (f : A -> M unit) : M unit :=
  match l with
  | [] => ret tt
  | x :: r => f x ;; for_each r f
  end.

Fixpoint digits (fuel n : nat) (acc : string) : string :=
  match fuel with
  | O => acc
  | S fuel' =>
      let acc' := String (ascii_of_nat (48 + Nat.modulo n 10)) acc in
      if Nat.ltb n 10 then acc' else digits fuel' (Nat.div n 10) acc'
  end.

Definition tmp_name (n : nat) : string := "/tmp/tmp" ++ digits (S n) n "".

(** [with TemporaryDirectory() as d: body]: the directory is removed when the
    block is left, normally or by an exception, which then propagates. *)
Definition with_tempdir {A} (body : string -> M A) : M A := fun w s =>
  let d := tmp_name (tmp_count s) in
  let s1 := mkState (cwd s) (fs s) (S (tmp_count s)) in
  match body d w s1 with
  | (r, s2, e) => (r, s2, (EMkdtemp d :: e ++ [ERmtree d])%list)
  end.

(** [with TemporaryFile() as f: body]: an anonymous file, nothing observable. *)
Definition with_tempfile {A} (body : M A) : M A := body.

(** [subprocess.run]: the [CompletedProcess] it returns. *)
Record completed := mkCompleted {
  proc_args : list string;
  proc_rc : Z;
  proc_stdout : option string
}.

(** Without a shell [args[0]] is executed directly; when it cannot be
    started (not found on [PATH], or a [.bat] file on POSIX, or a missing
    file) [FileNotFoundError] is raised and no process runs.  With
    [shell=True] the shell itself is started. *)
Definition run (args : list string) (shell : bool) (cwd_arg : option string)
  (capture : bool) : M completed := fun w s =>
  let dir := match cwd_arg with Some d => d | None => cwd s end in
  if shell || launches w args then
    (Ok (mkCompleted args (returncode w args)
           (if capture then Some (captured_output w args) else None)),
     s, [ERun args shell dir])
  else (Err FileNotFoundError, s, []).

Definition check_returncode (p : completed) : M unit :=
  if Z.eqb (proc_rc p) 0 then ret tt
  else raise (CalledProcessError (proc_rc p) (proc_args p)).

Definition stdout_text (p : completed) : string :=
  match proc_stdout p with Some o => o | None => "None" end.

(** The items of a command list, all of which must be strings for
    [' '.join(cmd)]; otherwise [TypeError]. *)
Fixpoint as_strs (l : list pyval) : M (list string) :=
  match l with
  | [] => ret []
  | PStr x :: r => xs <- as_strs r ;; ret (x :: xs)
  | _ :: _ => raise TypeError
  end.

(** [requests.get(url, stream=True)], answering the status code. *)
Definition requests_get (url : string) : M Z :=
  fun w s => (Ok (http_status w url), s, [EGet url]).

(** [Response.raise_for_status] raises [HTTPError] for 4xx and 5xx codes. *)
Definition http_error (status : Z) : bool := (400 <=? status)%Z && (status <? 600)%Z.

(** Responses that carry no body: [http.client] reads nothing for 1xx, 204
    and 304 final statuses. *)
Definition no_body_status (status : Z) : bool :=
  ((100 <=? status)%Z && (status <? 200)%Z) || (status =? 204)%Z || (status =? 304)%Z.

(** The content of the [TemporaryFile] once a response body was copied into
    it: nothing, or the body served for a URL. *)
Inductive tmpfile := Empty | BodyOf (url : string).

Definition holds_archive (w : world) (f : tmpfile) : bool :=
  match f with Empty => false | BodyOf u => serves_archive w u end.

(** [copyfileobj(r.raw, outfile)]. *)
Definition copy_body (url : string) (status : Z) : M tmpfile :=
  emit ECopyBody ;; ret (if no_body_status status then Empty else BodyOf url).

(** Whether the archive reader accepts the file. *)
Definition readable (f : tmpfile) : M bool := fun w s => (Ok (holds_archive w f), s, []).

(** ** The script's functions *)

(** [download_hdf5(version, outfile)]; the body is streamed into the
    temporary file ([ECopyBody]), whose content is the result.  An
    [HTTPError] is caught: a diagnostic is printed and [exit(1)] raises
    [SystemExit(1)]. *)
Definition download_hdf5 (version : string) : M tmpfile :=
  plat <- get_platform ;;
  let file := hdf5_url plat version in
  print_err ("Downloading " ++ file) ;;
  status <- requests_get file ;;
  if http_error status then
    print_err ("Failed to download hdf5 version " ++ version ++ ", exiting") ;;
    raise (SystemExit 1)
  else copy_body file status.

(** One command of the build loop of [build_hdf5] (lines 112-116). *)
Definition run_build_cmd (cmd : list pyval) : M unit :=
  c <- as_strs cmd ;;
  print_err (String.concat " " c) ;;
  p <- run c true None false ;;
  check_returncode p ;;
  print_out (stdout_text p).

(** [build_hdf5(version, hdf5_file, install_path, cmake_generator,
    use_prefix, with_mpi)]; the extraction of [hdf5_file] raises
    [BadZipFile] (zip) or [ReadError] (tar) when it holds no archive. *)
Definition build_hdf5 (version : string) (hdf5_file : tmpfile)
  (install_path cmake_generator : option string)
  (use_prefix with_mpi : bool) : M unit :=
  plat <- get_platform ;;
  let build_system := if is_win plat then "cmake" else "autotools" in
  with_tempdir (fun hdf5_extract_path =>
    ok <- readable hdf5_file ;;
    (if is_win plat then
       (if ok then emit (EUnzip hdf5_extract_path) else raise BadZipFile)
     else (if ok then emit (EUntar hdf5_extract_path) else raise ReadError)) ;;
    cmds <- (if String.eqb build_system "cmake" then
               (* get_cmake_cmds(version, install_path, cmake_generator, use_prefix) *)
               match call_get_cmake_cmds plat
                       [PStr version; py_of_opt install_path;
                        py_of_opt cmake_generator; PBool use_prefix] with
               | Some c => ret c
               | None => raise TypeError
               end
             else if String.eqb build_system "autotools" then
               ret (get_autotools_cmds install_path with_mpi)
             else raise RuntimeError) ;;
    let '(cfg_cmd, build_cmds) := cmds in
    old_dir <- getcwd ;;
    with_tempdir (fun cmake_work_dir =>
      (if String.eqb build_system "cmake" then chdir cmake_work_dir
       else if String.eqb build_system "autotools" then
         let cwd := get_unpacked_path plat version hdf5_extract_path in
         chdir cwd ;;
         p <- run ["chmod"; "+x"; "autogen.sh"] false None false ;;
         check_returncode p ;;
         p <- run ["./autogen.sh"] false (Some cwd) false ;;
         check_returncode p
       else raise RuntimeError) ;;
      print_err ("Configuring HDF5 version " ++ version ++ "...") ;;
      cfg <- as_strs cfg_cmd ;;
      print_err (String.concat " " cfg) ;;
      p <- run cfg false None true ;;
      print_out (stdout_text p) ;;
      check_returncode p ;;
      print_err ("Building HDF5 version " ++ version ++ "...") ;;
      for_each build_cmds run_build_cmd ;;
      print_err ("Installed HDF5 version " ++ version ++ " to "
                 ++ py_str (py_of_opt install_path)) ;;
      chdir old_dir)) ;;
  if is_win plat then
    print_err "Copying HDF5 dlls" ;;
    pattern <- pjoin install_path ["bin/*.dll"] ;;
    files <- glob pattern ;;
    for_each files (fun f => lib <- pjoin install_path ["lib"] ;; copy f lib)
  else ret tt.

(** [hdf5_cached(install_path)]. *)
Definition hdf5_cached (install_path : option string) : M bool :=
  p <- pjoin install_path ["lib"; "hdf5.dll"] ;;
  e <- path_exists p ;;
  if e then ret true else ret false.

Definition VS2008_PATCH : string := "ci\appveyor\vs2008_patch\setup_x64.bat".

Record config := mkConfig {
  cfg_install_path : option string;
  cfg_version : string;
  cfg_cmake_generator : option string;
  cfg_use_prefix : bool;
  cfg_with_mpi : bool
}.

(** [main], lines 174-190: the configuration read from the environment, the
    install directory created, the generator looked up. *)
Definition main_config : M config :=
  install_path <- getenv "HDF5_DIR" ;;
  version_env <- getenv "HDF5_VERSION" ;;
  let version := match version_env with Some v => v | None => DEFAULT_VERSION end in
  vs_version <- getenv "HDF5_VSVERSION" ;;
  prefix_env <- getenv "H5PY_USE_PREFIX" ;;
  let use_prefix := match prefix_env with Some _ => true | None => false end in
  mpi_env <- getenv "HDF5_MPI" ;;
  let with_mpi := match mpi_env with Some v => String.eqb v "ON" | None => false end in
  (match install_path with
   | Some p => e <- path_exists p ;; if e then ret tt else makedirs p
   | None => ret tt
   end) ;;
  cmake_generator <-
    (match vs_version with
     | Some vs =>
         match VSVERSION_TO_GENERATOR vs with
         | Some g =>
             (if String.eqb vs "9-64" then _ <- run [VS2008_PATCH] false None false ;; ret tt
              else ret tt) ;;
             ret (Some g)
         | None => raise KeyError
         end
     | None => ret None
     end) ;;
  ret (mkConfig install_path version cmake_generator use_prefix with_mpi).

(** [main], lines 192-203: cache check, download and build, listing. *)
Definition main_body (c : config) : M unit :=
  let install_path := cfg_install_path c in
  let version := cfg_version c in
  cached <- hdf5_cached install_path ;;
  (if negb cached then
     with_tempfile (f <- download_hdf5 version ;;
                    build_hdf5 version f install_path (cfg_cmake_generator c)
                      (cfg_use_prefix c) (cfg_with_mpi c))
   else print_err "using cached hdf5") ;;
  match install_path with
  | Some p =>
      print_err "hdf5 files: " ;;
      plat <- get_platform ;;
      entries <- walk p ;;
      for_each entries (fun '(dirpath, file) => print_out (" * " ++ join_str plat dirpath [file]))
  | None => ret tt
  end.

Definition main : M unit := c <- main_config ;; main_body c.

(** The initial process state: the start directory and the existing paths. *)
Definition start (dir : string) (existing : string -> bool) : state := mkState dir existing 0.

(** ** What a subprocess executes

    [subprocess.run(args, shell=True)] with a list: on POSIX it runs
    [['/bin/sh', '-c', args[0], args[1], ...]], so the shell executes the
    command text [args[0]] and the further items only become the shell's
    positional parameters [$0, $1, ...]; on Windows the list is joined into
    one command line for [cmd.exe /c] ([list2cmdline], modelled without its
    quoting). *)
Definition exec_argv (platform : string) (args : list string) (shell : bool) : list string :=
  if shell then
    if is_win platform then ["cmd.exe"; "/c"; String.concat " " args]
    else ("/bin/sh" :: "-c" :: args)%list
  else args.

(** The command line a run really carries out. *)
Definition executed_command (platform : string) (args : list string) (shell : bool) : string :=
  match exec_argv platform args shell with
  | "/bin/sh" :: "-c" :: text :: _ => if shell then text else String.concat " " args
  | "cmd.exe" :: "/c" :: [line] => if shell then line else String.concat " " args
  | argv => String.concat " " argv
  end.

Fixpoint executed_commands (platform : string) (evs : list event) : list string :=
  match evs with
  | [] => []
  | ERun args shell _ :: r => executed_command platform args shell :: executed_commands platform r
  | _ :: r => executed_commands platform r
  end.

(** ** Sample worlds *)

Definition env_of (l : list (string * string)) (k : string) : option string :=
  match find (fun p => String.eqb (fst p) k) l with
  | Some (_, v) => Some v
  | None => None
  end.

Definition nothing_exists : string -> bool := fun _ => false.

(** A world where every request serves the archive and every command starts
    and succeeds. *)
Definition good_world (plat : string) (env : list (string * string)) : world :=
  mkWorld plat (env_of env) (fun _ => 200%Z) (fun _ => true) (fun _ => true)
    (fun _ => 0%Z) (fun _ => "") (fun _ => []) (fun _ => []).


Definition failing_cmd (w : world) (bad : list string) (rc : Z) : world :=
  mkWorld (platform w) (environ w) (http_status w) (serves_archive w) (launches w)
    (fun a => if list_eq_dec string_dec a bad then rc else returncode w a)
    (captured_output w) (glob_result w) (walk_result w).

Definition unlaunchable (w : world) (bad : list string) : world :=
  mkWorld (platform w) (environ w) (http_status w) (serves_archive w)
    (fun a => if list_eq_dec string_dec a bad then false else launches w a)
    (returncode w) (captured_output w) (glob_result w) (walk_result w).

(** ** C7: the CMake install-prefix argument *)

(** C7: without an install path the argument is the single blank [" "]
    (not a flag, and no [None] in it); with one it is
    [-DCMAKE_INSTALL_PREFIX=<path>]. *)
Theorem cmake_install_path_arg :
  get_cmake_install_path None = " " /\
  String.prefix "-D" (get_cmake_install_path None) = false /\
  (forall p, get_cmake_install_path (Some p) = "-DCMAKE_INSTALL_PREFIX=" ++ p).
Proof.
  split; [reflexivity | split; [reflexivity |]].
  intros p; unfold get_cmake_install_path, format, CMAKE_INSTALL_PATH_ARG; cbn.
  destruct p; reflexivity.
Qed.

(** ** C3: the download URL *)

(** C3 (as amended): the release tree is chosen by the first two
    dot-separated components of the version: exactly ["1"; "10"] gives the
    1.10 tree, anything else the 1.8 tree; the archive is [.zip] on the
    Windows family, otherwise [.tar.gz] (1.10) or [.gzip] (1.8). *)
Theorem hdf5_url_choice : forall platform version,
  let is_110 :=
    if list_eq_dec string_dec (firstn 2 (split_on "." version)) ["1"; "10"]
    then true else false in
  hdf5_url platform version =
    "https://www.hdfgroup.org/ftp/HDF5/releases/hdf5-"
    ++ (if is_110 then "1.10" else "1.8") ++ "/hdf5-" ++ version
    ++ "/src/hdf5-" ++ version
    ++ (if is_win platform then ".zip" else if is_110 then ".tar.gz" else ".gzip").
Proof.
  intros platform version; cbn zeta.
  unfold hdf5_url, HDF5_110_FILE, HDF5_18_FILE.
  destruct (list_eq_dec string_dec (firstn 2 (split_on "." version)) ["1"; "10"]);
    destruct (is_win platform); reflexivity.
Qed.

(** C3: the version ["1.100.0"] begins with ["1.10"] but is sent to the 1.8
    release tree. *)
Lemma hdf5_url_1_100_in_18_tree :
  String.prefix "1.10" "1.100.0" = true /\
  String.prefix "https://www.hdfgroup.org/ftp/HDF5/releases/hdf5-1.10/"
    (hdf5_url "linux" "1.100.0") = false /\
  hdf5_url "linux" "1.100.0" =
    "https://www.hdfgroup.org/ftp/HDF5/releases/hdf5-1.8/hdf5-1.100.0/src/hdf5-1.100.0.gzip".
Proof. vm_compute. repeat split. Qed.

(** ** C6: the cache check *)

(** C6: for an install path [p], [hdf5_cached] answers whether
    [p/lib/hdf5.dll] exists, leaves the state unchanged and records no event;
    two filesystems that agree on that one path give the same answer. *)
Theorem hdf5_cached_spec : forall w s p,
  let artifact := join_str (platform w) p ["lib"; "hdf5.dll"] in
  hdf5_cached (Some p) w s = (Ok (fs s artifact), s, []) /\
  (forall s', fs s' artifact = fs s artifact ->
     res_of (hdf5_cached (Some p) w s') = res_of (hdf5_cached (Some p) w s)).
Proof.
  intros w s p artifact.
  assert (E : forall s0, hdf5_cached (Some p) w s0 = (Ok (fs s0 artifact), s0, [])).
  { intros s0; unfold hdf5_cached, pjoin, bind, get_platform, ret, path_exists; cbn.
    subst artifact; destruct (fs s0 _); reflexivity. }
  split; [apply E |].
  intros s' Hs'; rewrite !E; unfold res_of, artifact in *; cbn in *; now rewrite Hs'.
Qed.

(** ** C9: the CMake path *)

(** C9: on the Windows family [build_hdf5] calls [get_cmake_cmds] with
    four positional arguments, one short of its five, so every build raises
    [TypeError] right after the extraction (or [BadZipFile] in the
    extraction, when the file holds no zip): no directory change and no
    subprocess. *)
Theorem build_hdf5_windows_type_error :
  forall w s version hdf5_file install_path cmake_generator use_prefix with_mpi,
  is_win (platform w) = true ->
  let d := tmp_name (tmp_count s) in
  call_get_cmake_cmds (platform w)
    [PStr version; py_of_opt install_path; py_of_opt cmake_generator; PBool use_prefix]
    = None /\
  build_hdf5 version hdf5_file install_path cmake_generator use_prefix with_mpi w s =
    (Err (if holds_archive w hdf5_file then TypeError else BadZipFile),
     mkState (cwd s) (fs s) (S (tmp_count s)),
     (EMkdtemp d :: (if holds_archive w hdf5_file then [EUnzip d] else []) ++ [ERmtree d])%list).
Proof.
  intros w s version hdf5_file install_path cmake_generator use_prefix with_mpi Hwin d.
  split; [reflexivity |].
  unfold build_hdf5, bind, get_platform, with_tempdir, readable, emit, raise; cbn.
  rewrite Hwin; cbn. destruct (holds_archive w hdf5_file); reflexivity.
Qed.

(** Witness of C9 on [win32]. *)
Lemma build_hdf5_windows_type_error_witness :
  is_win "win32" = true /\
  build_hdf5 "1.10.2" (BodyOf (hdf5_url "win32" "1.10.2")) (Some "C:\hdf5")
    (Some "Visual Studio 14 2015 Win64") false false
    (good_world "win32" []) (start "C:\ci" nothing_exists) =
    (Err TypeError, mkState "C:\ci" nothing_exists 1,
     [EMkdtemp "/tmp/tmp0"; EUnzip "/tmp/tmp0"; ERmtree "/tmp/tmp0"]).
Proof.
  split; [reflexivity |].
  exact (proj2 (build_hdf5_windows_type_error (good_world "win32" [])
                  (start "C:\ci" nothing_exists) "1.10.2"
                  (BodyOf (hdf5_url "win32" "1.10.2")) (Some "C:\hdf5")
                  (Some "Visual Studio 14 2015 Win64") false false eq_refl)).
Defined.

(** ** C10: a run without [HDF5_DIR] *)

(** C10: when [HDF5_DIR] is unset, [main] ends in an uncaught exception:
    [TypeError] from [hdf5_cached(None)] once the configuration is read, or
    earlier [KeyError] (an unknown Visual Studio token) or
    [FileNotFoundError] (token [9-64] and the patch script cannot be
    started).  The only event it may record is the Visual Studio 2008 patch
    script: no download, extraction or build. *)
Theorem main_without_install_path : forall w s,
  environ w "HDF5_DIR" = None ->
  res_of (main w s) =
    Err (match environ w "HDF5_VSVERSION" with
         | Some vs => match VSVERSION_TO_GENERATOR vs with
                      | Some _ => if String.eqb vs "9-64" && negb (launches w [VS2008_PATCH])
                                  then FileNotFoundError else TypeError
                      | None => KeyError
                      end
         | None => TypeError
         end) /\
  (forall x, In x (evs_of (main w s)) -> x = ERun [VS2008_PATCH] false (cwd s)).
Proof.
  intros w s Hdir.
  unfold main, main_config, main_body, hdf5_cached, pjoin, bind, getenv, ret, raise, run.
  cbn. rewrite Hdir.
  destruct (environ w "HDF5_VSVERSION") as [vs|]; cbn.
  - destruct (VSVERSION_TO_GENERATOR vs) as [g|]; cbn.
    + destruct (String.eqb vs "9-64"); cbn;
        [destruct (launches w [VS2008_PATCH]) |]; cbn; split; try reflexivity;
        intros x Hx; unfold evs_of in Hx; cbn in Hx; intuition congruence.
    + split; [reflexivity |].
      intros x Hx; unfold evs_of in Hx; cbn in Hx; contradiction.
  - split; [reflexivity |].
    intros x Hx; unfold evs_of in Hx; cbn in Hx; contradiction.
Qed.

(** Witness of C10: no environment at all on Linux. *)
Lemma main_without_install_path_witness :
  environ (good_world "linux" []) "HDF5_DIR" = None /\
  res_of (main (good_world "linux" []) (start "/home/ci" nothing_exists)) = Err TypeError.
Proof.
  split; [reflexivity |].
  exact (proj1 (main_without_install_path (good_world "linux" [])
                  (start "/home/ci" nothing_exists) eq_refl)).
Defined.

(** Counterexample to C10: on Linux with [HDF5_VSVERSION=9-64] the patch
    script, a [.bat] file run without a shell, cannot be started, so [main]
    raises [FileNotFoundError] and never reaches [hdf5_cached(None)]. *)
Lemma main_vs2008_patch_not_started :
  let w := unlaunchable (good_world "linux" [("HDF5_VSVERSION", "9-64")]) [VS2008_PATCH] in
  environ w "HDF5_DIR" = None /\
  main w (start "/home/ci" nothing_exists) =
    (Err FileNotFoundError, start "/home/ci" nothing_exists, []).
Proof. vm_compute. split; reflexivity. Qed.

(** ** C1: the Windows end-to-end scenario *)

Definition win_env : list (string * string) :=
  [("HDF5_VERSION", "1.10.2"); ("HDF5_VSVERSION", "14-64")].

(** C1: version 1.10.2 on [win32] with generator token [14-64] and no
    [HDF5_DIR]: [main] raises [TypeError] in [hdf5_cached(None)] and records
    nothing, so there is no download, no extraction, no CMake and no dll copy.
    With [HDF5_DIR] set, the zip of the 1.10 tree is downloaded and unpacked,
    and the run still stops with [TypeError] before any CMake command. *)
Theorem windows_scenario_type_error :
  main (good_world "win32" win_env) (start "C:\ci" nothing_exists) =
    (Err TypeError, start "C:\ci" nothing_exists, []) /\
  evs_of (main (good_world "win32" (("HDF5_DIR", "C:\hdf5") :: win_env))
            (start "C:\ci" nothing_exists)) =
    [EMakedirs "C:\hdf5";
     EPrint true ("Downloading " ++ hdf5_url "win32" "1.10.2");
     EGet "https://www.hdfgroup.org/ftp/HDF5/releases/hdf5-1.10/hdf5-1.10.2/src/hdf5-1.10.2.zip";
     ECopyBody; EMkdtemp "/tmp/tmp0"; EUnzip "/tmp/tmp0"; ERmtree "/tmp/tmp0"] /\
  res_of (main (good_world "win32" (("HDF5_DIR", "C:\hdf5") :: win_env))
            (start "C:\ci" nothing_exists)) = Err TypeError.
Proof. vm_compute. repeat split. Qed.

(** ** C2: the Linux end-to-end scenario *)

Definition linux_env : list (string * string) :=
  [("HDF5_DIR", "/tmp/out"); ("HDF5_VERSION", "1.8.17")].

(** C2: version 1.8.17 on [linux], [HDF5_DIR=/tmp/out], no MPI, no prefix,
    every request and command succeeding: the whole log of [main].  The
    argument list [["make"; "install"]] is handed to [run] with
    [shell=True], so the shell executes the command text ["make"] only. *)
Theorem linux_scenario_log :
  let o := main (good_world "linux" linux_env) (start "/home/ci" nothing_exists) in
  res_of o = Ok tt /\
  evs_of o =
    [EMakedirs "/tmp/out";
     EPrint true ("Downloading " ++ hdf5_url "linux" "1.8.17");
     EGet "https://www.hdfgroup.org/ftp/HDF5/releases/hdf5-1.8/hdf5-1.8.17/src/hdf5-1.8.17.gzip";
     ECopyBody; EMkdtemp "/tmp/tmp0"; EUntar "/tmp/tmp0";
     EMkdtemp "/tmp/tmp1"; EChdir "/tmp/tmp0/hdf5-1.8.17";
     ERun ["chmod"; "+x"; "autogen.sh"] false "/tmp/tmp0/hdf5-1.8.17";
     ERun ["./autogen.sh"] false "/tmp/tmp0/hdf5-1.8.17";
     EPrint true "Configuring HDF5 version 1.8.17...";
     EPrint true "./configure --prefix /tmp/out";
     ERun ["./configure"; "--prefix"; "/tmp/out"] false "/tmp/tmp0/hdf5-1.8.17";
     EPrint false ""; EPrint true "Building HDF5 version 1.8.17...";
     EPrint true "make"; ERun ["make"] true "/tmp/tmp0/hdf5-1.8.17";
     EPrint false "None"; EPrint true "make install";
     ERun ["make"; "install"] true "/tmp/tmp0/hdf5-1.8.17";
     EPrint false "None";
     EPrint true "Installed HDF5 version 1.8.17 to /tmp/out";
     EChdir "/home/ci"; ERmtree "/tmp/tmp1"; ERmtree "/tmp/tmp0";
     EPrint true "hdf5 files: "; EWalk "/tmp/out"] /\
  executed_commands "linux" (evs_of o) =
    ["chmod +x autogen.sh"; "./autogen.sh"; "./configure --prefix /tmp/out";
     "make"; "make"] /\
  ~ In "make install" (executed_commands "linux" (evs_of o)).
Proof.
  vm_compute. split; [reflexivity | split; [reflexivity | split; [reflexivity |]]].
  intros H; repeat destruct H as [H|H]; discriminate || contradiction.
Qed.

(** ** Aborting events

    [stops bad okpost m]: whenever [m] records an event [x] that [bad] maps
    to an exception [e], what [m] records after [x] satisfies [okpost] and
    [m] ends with [Err e].  [never P m]: every event of [m] satisfies [P]. *)

Section Stops.
Variable w : world.

Definition never {A} (P : event -> Prop) (m : M A) : Prop :=
  forall s x, In x (evs_of (m w s)) -> P x.

Lemma never_ret {A} P (a : A) : never P (ret a).
Proof. intros s x []. Qed.

Lemma never_raise {A} P e : never P (@raise A e).
Proof. intros s x []. Qed.

Lemma never_emit P e : P e -> never P (emit e).
Proof. intros He s x [<-|[]]; exact He. Qed.

Lemma never_bind {A B} P (m : M A) (f : A -> M B) :
  never P m -> (forall a, never P (f a)) -> never P (bind m f).
Proof.
  intros Hm Hf s x Hx; unfold bind, evs_of in *.
  specialize (Hm s x); destruct (m w s) as [[[a|e] s1] e1]; cbn in *.
  - specialize (Hf a s1 x); destruct (f a w s1) as [[r2 s2] e2]; cbn in *.
    apply in_app_or in Hx as [Hx|Hx]; auto.
  - auto.
Qed.

Lemma never_with_tempdir {A} P (body : string -> M A) :
  (forall d, P (EMkdtemp d)) -> (forall d, P (ERmtree d)) ->
  (forall d, never P (body d)) -> never P (with_tempdir body).
Proof.
  intros Hmk Hrm Hb s x Hx; unfold with_tempdir, evs_of in *.
  remember (tmp_name (tmp_count s)) as d eqn:Ed; clear Ed.
  specialize (Hb d (mkState (cwd s) (fs s) (S (tmp_count s))) x).
  destruct (body d w _) as [[r s2] e]; cbn in *.
  destruct Hx as [<-|Hx]; auto.
  apply in_app_or in Hx as [Hx|[<-|[]]]; auto.
Qed.

Lemma never_for_each {A} P (l : list A) (f : A -> M unit) :
  (forall a, never P (f a)) -> never P (for_each l f).
Proof.
  intros Hf; induction l as [|a l IH]; cbn.
  - apply never_ret.
  - apply never_bind; auto.
Qed.

Variable bad : event -> option exn.
Variable okpost : list event -> Prop.

Definition stops {A} (m : M A) : Prop :=
  forall s pre x post e,
    evs_of (m w s) = (pre ++ x :: post)%list -> bad x = Some e ->
    okpost post /\ res_of (m w s) = Err e.

Lemma never_stops {A} (m : M A) : never (fun x => bad x = None) m -> stops m.
Proof.
  intros Hm s pre x post e He Hb.
  assert (Hin : In x (evs_of (m w s))) by (rewrite He; apply in_elt).
  specialize (Hm s x Hin); congruence.
Qed.

(** Binding: the second computation needs the property only for the
    results the first one can produce. *)
Lemma stops_bind_post {A B} (Q : A -> Prop) (m : M A) (f : A -> M B) :
  stops m -> (forall s a, res_of (m w s) = Ok a -> Q a) ->
  (forall a, Q a -> stops (f a)) -> stops (bind m f).
Proof.
  intros Hm HQ Hf s pre x post e He Hb; unfold bind, evs_of, res_of in *.
  specialize (Hm s); specialize (HQ s).
  destruct (m w s) as [[[a|e0] s1] e1] eqn:Em; cbn in *.
  - specialize (Hf a (HQ a eq_refl) s1).
    destruct (f a w s1) as [[r2 s2] e2]; cbn in *.
    apply app_eq_app in He as [l [[-> Hl]|[-> Hl]]].
    + destruct l as [|y l]; cbn in Hl.
      * subst e2. apply (Hf [] x post e); auto.
      * injection Hl as <- ->.
        destruct (Hm pre x l e eq_refl Hb) as [_ Habs]; discriminate.
    + apply (Hf l x post e); auto.
  - destruct (Hm pre x post e He Hb) as [Hok Hr]; injection Hr as ->; auto.
Qed.

Lemma stops_bind {A B} (m : M A) (f : A -> M B) :
  stops m -> (forall a, stops (f a)) -> stops (bind m f).
Proof.
  intros Hm Hf; apply (stops_bind_post (fun _ => True)); auto.
Qed.

Lemma stops_with_tempdir {A} (body : string -> M A) :
  (forall d, bad (EMkdtemp d) = None) -> (forall d, bad (ERmtree d) = None) ->
  (forall post d, okpost post -> okpost (post ++ [ERmtree d])%list) ->
  (forall d, stops (body d)) -> stops (with_tempdir body).
Proof.
  intros Hmk Hrm Hcl Hb s pre x post e He Hbx; unfold with_tempdir, evs_of, res_of in *.
  remember (tmp_name (tmp_count s)) as d eqn:Ed; clear Ed.
  specialize (Hb d (mkState (cwd s) (fs s) (S (tmp_count s)))).
  destruct (body d w _) as [[r s2] e1]; cbn in *.
  destruct pre as [|y pre]; cbn in He; injection He as Hy He.
  - subst x; rewrite Hmk in Hbx; discriminate.
  - apply app_eq_app in He as [l [[-> Hl]|[-> Hl]]].
    + destruct l as [|z l]; cbn in Hl; injection Hl as Hx Hpost.
      * subst x; rewrite Hrm in Hbx; discriminate.
      * subst z post; destruct (Hb pre x l e eq_refl Hbx) as [Hok Hr]; split; auto.
    + destruct l as [|z l]; cbn in Hl; injection Hl as Hl Hnil.
      * subst x; rewrite Hrm in Hbx; discriminate.
      * destruct l; discriminate.
Qed.

Lemma stops_for_each {A} (l : list A) (f : A -> M unit) :
  (forall a, stops (f a)) -> stops (for_each l f).
Proof.
  intros Hf; induction l as [|a l IH]; cbn.
  - apply never_stops, never_ret.
  - apply stops_bind; auto.
Qed.

End Stops.

Section Primitives.
Variable w : world.
Variable P : event -> Prop.

Lemma never_noevs {A} (m : M A) : (forall s, evs_of (m w s) = []) -> never w P m.
Proof. intros H s x Hx; rewrite H in Hx; destruct Hx. Qed.

Lemma as_strs_noevs l s : evs_of (as_strs l w s) = [].
Proof.
  revert s; induction l as [|[x| |b] l IH]; intros s; try reflexivity.
  cbn; unfold bind; specialize (IH s); unfold evs_of in IH.
  destruct (as_strs l w s) as [[[xs|e] s1] e1]; cbn in *; subst; reflexivity.
Qed.

Lemma never_as_strs l : never w P (as_strs l).
Proof. apply never_noevs; intros s; apply as_strs_noevs. Qed.

Lemma never_pjoin a bs : never w P (pjoin a bs).
Proof. apply never_noevs; intros s; destruct a; reflexivity. Qed.

Lemma never_check_returncode p : never w P (check_returncode p).
Proof.
  apply never_noevs; intros s; unfold check_returncode; destruct (Z.eqb _ _); reflexivity.
Qed.

Lemma never_run a sh c cap :
  (forall dir, P (ERun a sh dir)) -> never w P (run a sh c cap).
Proof.
  intros H s x Hx; unfold run, evs_of in Hx.
  destruct (sh || launches w a); cbn in Hx; [destruct Hx as [<-|[]]; apply H | destruct Hx].
Qed.

Lemma never_readable f : never w P (readable f).
Proof. apply never_noevs; reflexivity. Qed.

Lemma never_walk top : P (EWalk top) -> never w P (walk top).
Proof. intros H s x [<-|[]]; exact H. Qed.

Lemma never_chdir d : P (EChdir d) -> never w P (chdir d).
Proof. intros H s x [<-|[]]; exact H. Qed.

Lemma never_makedirs d : P (EMakedirs d) -> never w P (makedirs d).
Proof. intros H s x [<-|[]]; exact H. Qed.

Lemma never_requests_get u : P (EGet u) -> never w P (requests_get u).
Proof. intros H s x [<-|[]]; exact H. Qed.

End Primitives.

(** Decomposes [never] goals down to the primitives; the events they record
    are checked by [solve_ev]. *)
Ltac never_auto solve_ev :=
  repeat match goal with
  | |- never _ _ (bind _ _) => apply never_bind; [|intros ?]
  | |- never _ _ (with_tempdir _) => apply never_with_tempdir; [intros ?; solve_ev | intros ?; solve_ev | intros ?]
  | |- never _ _ (for_each _ _) => apply never_for_each; intros ?
  | |- never _ _ (with_tempfile _) => unfold with_tempfile
  | |- never _ _ (if ?b then _ else _) => destruct b
  | |- never _ _ (match ?x with _ => _ end) => destruct x
  | |- never _ _ (ret _) => apply never_ret
  | |- never _ _ (raise _) => apply never_raise
  | |- never _ _ (emit _) => apply never_emit; solve_ev
  | |- never _ _ (print_err _) => apply never_emit; solve_ev
  | |- never _ _ (print_out _) => apply never_emit; solve_ev
  | |- never _ _ (copy _ _) => apply never_emit; solve_ev
  | |- never _ _ (run _ _ _ _) => apply never_run; intros ?; solve_ev
  | |- never _ _ (walk _) => apply never_walk; solve_ev
  | |- never _ _ (chdir _) => apply never_chdir; solve_ev
  | |- never _ _ (makedirs _) => apply never_makedirs; solve_ev
  | |- never _ _ (requests_get _) => apply never_requests_get; solve_ev
  | |- never _ _ (as_strs _) => apply never_as_strs
  | |- never _ _ (pjoin _ _) => apply never_pjoin
  | |- never _ _ (check_returncode _) => apply never_check_returncode
  | |- never _ _ (hdf5_cached _) => unfold hdf5_cached
  | |- never _ _ (download_hdf5 _) => unfold download_hdf5
  | |- never _ _ (copy_body _ _) => unfold copy_body
  | |- never _ _ main_config => unfold main_config
  | |- never _ _ _ => apply never_noevs; intros ?; reflexivity
  end.

(** ** C5: a failed subprocess aborts the run *)

(** A run whose exit status is non-zero, with the exception
    [check_returncode] raises for it. *)
Definition failed_run (w : world) (x : event) : option exn :=
  match x with
  | ERun a _ _ =>
      if Z.eqb (returncode w a) 0 then None
      else Some (CalledProcessError (returncode w a) a)
  | _ => None
  end.

(** Events that are neither a subprocess nor the listing of the install
    path. *)
Definition quiet (x : event) : bool :=
  match x with ERun _ _ _ | EWalk _ => false | _ => true end.

Definition all_quiet (post : list event) : Prop := forallb quiet post = true.

Section FailStop.
Variable w : world.

Lemma all_quiet_rmtree post d : all_quiet post -> all_quiet (post ++ [ERmtree d])%list.
Proof. unfold all_quiet; intros H; rewrite forallb_app, H; reflexivity. Qed.

(** [p = run(...); p.check_returncode(); k]. *)
Lemma stops_run_check {B} a sh c cap (k : completed -> M B) :
  (forall p, stops w (failed_run w) all_quiet (k p)) ->
  stops w (failed_run w) all_quiet
    (bind (run a sh c cap) (fun p => bind (check_returncode p) (fun _ => k p))).
Proof.
  intros Hk s pre x post e He Hb; unfold bind, run, check_returncode, evs_of, res_of in *.
  cbn in *.
  destruct (sh || launches w a); cbn in *; [| destruct pre; discriminate].
  destruct (Z.eqb (returncode w a) 0) eqn:Hrc; cbn in *.
  - set (p := mkCompleted _ _ _) in *.
    specialize (Hk p s); destruct (k p w s) as [[r2 s2] e2]; cbn in *.
    destruct pre as [|y pre]; injection He as Hy He.
    + subst x; cbn in Hb; rewrite Hrc in Hb; discriminate.
    + apply (Hk pre x post e); auto.
  - destruct pre as [|y pre]; injection He as Hy He.
    + subst x post; cbn in Hb; rewrite Hrc in Hb; injection Hb as <-.
      split; reflexivity.
    + destruct pre; discriminate.
Qed.

(** [p = run(...); p.check_returncode()] at the end of a block. *)
Lemma stops_run_check_last a sh c cap :
  stops w (failed_run w) all_quiet (bind (run a sh c cap) (fun p => check_returncode p)).
Proof.
  intros s pre x post e He Hb; unfold bind, run, check_returncode, evs_of, res_of in *.
  cbn in *.
  destruct (sh || launches w a); cbn in *; [| destruct pre; discriminate].
  destruct (Z.eqb (returncode w a) 0) eqn:Hrc; cbn in *;
    destruct pre as [|y pre]; cbn in He; inversion He; subst.
  - cbn in Hb; rewrite Hrc in Hb; discriminate.
  - destruct pre; discriminate.
  - cbn in Hb; rewrite Hrc in Hb; injection Hb as <-; split; reflexivity.
  - destruct pre; discriminate.
Qed.

(** [p = run(...); print(p.stdout); p.check_returncode(); k]. *)
Lemma stops_run_print_check {B} a sh c cap (g : completed -> string) (k : completed -> M B) :
  (forall p, stops w (failed_run w) all_quiet (k p)) ->
  stops w (failed_run w) all_quiet
    (bind (run a sh c cap)
       (fun p => bind (print_out (g p)) (fun _ => bind (check_returncode p) (fun _ => k p)))).
Proof.
  intros Hk s pre x post e He Hb;
    unfold bind, run, print_out, emit, check_returncode, evs_of, res_of in *.
  cbn in *.
  destruct (sh || launches w a); cbn in *; [| destruct pre; discriminate].
  destruct (Z.eqb (returncode w a) 0) eqn:Hrc; cbn in *.
  - set (p := mkCompleted _ _ _) in *.
    specialize (Hk p s); destruct (k p w s) as [[r2 s2] e2]; cbn in *.
    destruct pre as [|y [|z pre]]; cbn in He; inversion He; subst.
    + cbn in Hb; rewrite Hrc in Hb; discriminate.
    + discriminate.
    + apply (Hk pre x post e); auto.
  - destruct pre as [|y [|z pre]]; cbn in He; inversion He; subst.
    + cbn in Hb; rewrite Hrc in Hb; injection Hb as <-; split; reflexivity.
    + discriminate.
    + destruct pre; discriminate.
Qed.

Ltac ev_ok := first [reflexivity | discriminate | congruence | idtac].

Ltac stops_auto hook :=
  repeat match goal with
  | |- _ => hook
  | |- stops _ _ _ (bind (run _ _ _ _) (fun p => bind (check_returncode p) _)) =>
      apply stops_run_check; intros ?
  | |- stops _ _ _ (bind (run _ _ _ _)
                      (fun p => bind (print_out _) (fun _ => bind (check_returncode p) _))) =>
      apply stops_run_print_check; intros ?
  | |- stops _ _ _ (bind (run _ _ _ _) (fun p => check_returncode p)) =>
      apply stops_run_check_last
  | |- stops _ _ _ (bind _ _) => apply stops_bind; [|intros ?]
  | |- stops _ _ _ (with_tempdir _) =>
      apply stops_with_tempdir;
        [intros ?; reflexivity | intros ?; reflexivity | apply all_quiet_rmtree | intros ?]
  | |- stops _ _ _ (for_each _ _) => apply stops_for_each; intros ?
  | |- stops _ _ _ (with_tempfile _) => unfold with_tempfile
  | |- stops _ _ _ (if ?b then _ else _) => destruct b
  | |- stops _ _ _ (match ?x with _ => _ end) => destruct x
  | |- stops _ _ _ _ => apply never_stops; never_auto ev_ok
  end.

Lemma build_hdf5_stops version hdf5_file install_path cmake_generator use_prefix with_mpi :
  stops w (failed_run w) all_quiet
    (build_hdf5 version hdf5_file install_path cmake_generator use_prefix with_mpi).
Proof. unfold build_hdf5, run_build_cmd; stops_auto fail. Qed.

Lemma main_body_stops c : stops w (failed_run w) all_quiet (main_body c).
Proof.
  unfold main_body; stops_auto ltac:(apply build_hdf5_stops).
Qed.

End FailStop.

Lemma main_config_no_get w : never w (fun x => forall u, x <> EGet u) main_config.
Proof. never_auto ltac:(first [intros ? ?; discriminate | idtac]). Qed.

(** C5: a subprocess started after the download request (that is, in the
    build step, where every [run] is followed by [check_returncode]) that
    exits with a non-zero status ends the run: [main] ends with the
    [CalledProcessError] of that command, and what it records afterwards
    contains no further subprocess and no listing of the install path. *)
Theorem failed_build_command_aborts : forall w s pre a sh dir post u,
  evs_of (main w s) = (pre ++ ERun a sh dir :: post)%list ->
  In (EGet u) pre ->
  returncode w a <> 0%Z ->
  all_quiet post /\ res_of (main w s) = Err (CalledProcessError (returncode w a) a).
Proof.
  intros w s pre a sh dir post u He Hget Hrc.
  assert (Hbad : failed_run w (ERun a sh dir) = Some (CalledProcessError (returncode w a) a)).
  { cbn; apply Z.eqb_neq in Hrc; rewrite Hrc; reflexivity. }
  pose proof (main_config_no_get w s) as Hcfg.
  unfold main, bind, evs_of, res_of in *.
  destruct (main_config w s) as [[[c|e0] s1] e1] eqn:Ec; cbn in *.
  - pose proof (main_body_stops w c s1) as Hb; unfold evs_of, res_of in Hb.
    destruct (main_body c w s1) as [[r2 s2] e2] eqn:Eb; cbn in *.
    apply app_eq_app in He as [l [[-> Hl]|[-> Hl]]].
    + exfalso; apply (Hcfg (EGet u) ltac:(apply in_or_app; now left) u); reflexivity.
    + apply (Hb l _ post _ Hl Hbad).
  - exfalso; subst e1; apply (Hcfg (EGet u) ltac:(apply in_or_app; now left) u); reflexivity.
Qed.

(** Witness of C5: [make install] exits with status 2 in the Linux
    scenario. *)
Lemma failed_build_command_aborts_witness :
  let w := failing_cmd (good_world "linux" linux_env) ["make"; "install"] 2 in
  let s := start "/home/ci" nothing_exists in
  let u := "https://www.hdfgroup.org/ftp/HDF5/releases/hdf5-1.8/hdf5-1.8.17/src/hdf5-1.8.17.gzip" in
  let pre :=
    [EMakedirs "/tmp/out";
     EPrint true ("Downloading " ++ u);
     EGet u; ECopyBody; EMkdtemp "/tmp/tmp0"; EUntar "/tmp/tmp0";
     EMkdtemp "/tmp/tmp1"; EChdir "/tmp/tmp0/hdf5-1.8.17";
     ERun ["chmod"; "+x"; "autogen.sh"] false "/tmp/tmp0/hdf5-1.8.17";
     ERun ["./autogen.sh"] false "/tmp/tmp0/hdf5-1.8.17";
     EPrint true "Configuring HDF5 version 1.8.17...";
     EPrint true "./configure --prefix /tmp/out";
     ERun ["./configure"; "--prefix"; "/tmp/out"] false "/tmp/tmp0/hdf5-1.8.17";
     EPrint false ""; EPrint true "Building HDF5 version 1.8.17...";
     EPrint true "make"; ERun ["make"] true "/tmp/tmp0/hdf5-1.8.17";
     EPrint false "None"; EPrint true "make install"] in
  let post := [ERmtree "/tmp/tmp1"; ERmtree "/tmp/tmp0"] in
  evs_of (main w s) = (pre ++ ERun ["make"; "install"] true "/tmp/tmp0/hdf5-1.8.17" :: post)%list /\
  In (EGet u) pre /\
  returncode w ["make"; "install"] <> 0%Z /\
  all_quiet post /\
  res_of (main w s) = Err (CalledProcessError 2 ["make"; "install"]).
Proof.
  intros w s u pre post.
  assert (He : evs_of (main w s) =
               (pre ++ ERun ["make"; "install"] true "/tmp/tmp0/hdf5-1.8.17" :: post)%list)
    by (vm_compute; reflexivity).
  assert (Hu : In (EGet u) pre) by (cbn; tauto).
  assert (Hrc : returncode w ["make"; "install"] <> 0%Z) by (vm_compute; discriminate).
  destruct (failed_build_command_aborts w s pre _ _ _ post u He Hu Hrc) as [Hq Hr].
  repeat split; assumption.
Defined.

(** ** C4: a failed download *)



Definition version_of (w : world) : string :=
  match environ w "HDF5_VERSION" with Some v => v | None => DEFAULT_VERSION end.

Section HttpFailure.
Variable w : world.





End HttpFailure.

Arguments tmp_name : simpl never.

Lemma evs_bind {A B} (m : M A) (f : A -> M B) w s :
  evs_of (bind m f w s) =
  (evs_of (m w s) ++ match m w s with
                     | (Ok a, s1, _) => evs_of (f a w s1)
                     | (Err _, _, _) => []
                     end)%list.
Proof.
  unfold bind, evs_of; destruct (m w s) as [[[a|e] s1] e1]; cbn.
  - destruct (f a w s1) as [[r s2] e2]; reflexivity.
  - now rewrite app_nil_r.
Qed.

Lemma res_bind {A B} (m : M A) (f : A -> M B) w s :
  res_of (bind m f w s) =
  match m w s with
  | (Ok a, s1, _) => res_of (f a w s1)
  | (Err e, _, _) => Err e
  end.
Proof.
  unfold bind, res_of; destruct (m w s) as [[[a|e] s1] e1]; cbn; [|reflexivity].
  destruct (f a w s1) as [[r s2] e2]; reflexivity.
Qed.

Section NoBody.
Variable w : world.






End NoBody.




(** ** C8: the working directory around the build step *)

Section Cwd.
Variable w : world.

(** [m] ends, when it returns normally, in the directory it started in. *)
Definition restores {A} (m : M A) : Prop :=
  forall s a, res_of (m w s) = Ok a -> cwd (st_of (m w s)) = cwd s.

(** [m] ends, when it returns normally, in directory [d]. *)
Definition lands_in {A} (d : string) (m : M A) : Prop :=
  forall s a, res_of (m w s) = Ok a -> cwd (st_of (m w s)) = d.

(** [m] never changes the working directory. *)
Definition keeps_cwd {A} (m : M A) : Prop := forall s, cwd (st_of (m w s)) = cwd s.

Lemma keeps_restores {A} (m : M A) : keeps_cwd m -> restores m.
Proof. intros H s a _; apply H. Qed.

Lemma restores_bind {A B} (m : M A) (f : A -> M B) :
  restores m -> (forall a, restores (f a)) -> restores (bind m f).
Proof.
  intros Hm Hf s b; unfold bind, res_of, st_of in *.
  specialize (Hm s); destruct (m w s) as [[[a|e] s1] e1]; cbn in *; [|discriminate].
  specialize (Hf a s1); destruct (f a w s1) as [[r2 s2] e2]; cbn in *.
  intros ->; rewrite (Hf b eq_refl); apply (Hm a eq_refl).
Qed.

Lemma lands_bind {A B} d (m : M A) (f : A -> M B) :
  (forall a, lands_in d (f a)) -> lands_in d (bind m f).
Proof.
  intros Hf s b; unfold bind, res_of, st_of in *.
  destruct (m w s) as [[[a|e] s1] e1]; cbn in *; [|discriminate].
  specialize (Hf a s1); destruct (f a w s1) as [[r2 s2] e2]; cbn in *.
  intros ->; apply (Hf b eq_refl).
Qed.

Lemma lands_chdir d : lands_in d (chdir d).
Proof. intros s a _; reflexivity. Qed.

Lemma restores_with_tempdir {A} (body : string -> M A) :
  (forall d, restores (body d)) -> restores (with_tempdir body).
Proof.
  intros Hb s a; unfold with_tempdir, res_of, st_of in *.
  remember (tmp_name (tmp_count s)) as d eqn:Ed; clear Ed.
  specialize (Hb d (mkState (cwd s) (fs s) (S (tmp_count s))) a).
  destruct (body d w _) as [[r s2] e]; cbn in *; exact Hb.
Qed.

Lemma lands_with_tempdir {A} x (body : string -> M A) :
  (forall d, lands_in x (body d)) -> lands_in x (with_tempdir body).
Proof.
  intros Hb s a; unfold with_tempdir, res_of, st_of in *.
  remember (tmp_name (tmp_count s)) as d eqn:Ed; clear Ed.
  specialize (Hb d (mkState (cwd s) (fs s) (S (tmp_count s))) a).
  destruct (body d w _) as [[r s2] e]; cbn in *; exact Hb.
Qed.

(** [old_dir = getcwd(); ...; chdir(old_dir)]. *)
Lemma restores_getcwd {A} (f : string -> M A) :
  (forall old, lands_in old (f old)) -> restores (bind getcwd f).
Proof.
  intros Hf s a; unfold bind, getcwd, res_of, st_of in *; cbn.
  specialize (Hf (cwd s) s a); destruct (f (cwd s) w s) as [[r s2] e]; cbn in *; exact Hf.
Qed.

Lemma restores_for_each {A} (l : list A) (f : A -> M unit) :
  (forall a, restores (f a)) -> restores (for_each l f).
Proof.
  intros Hf; induction l as [|a l IH]; cbn.
  - apply keeps_restores; intros s; reflexivity.
  - apply restores_bind; auto.
Qed.

Lemma keeps_pjoin a bs : keeps_cwd (pjoin a bs).
Proof. intros s; destruct a; reflexivity. Qed.

Lemma keeps_run a sh c cap : keeps_cwd (run a sh c cap).
Proof. intros s; unfold run; destruct (sh || launches w a); reflexivity. Qed.

End Cwd.

Ltac lands_auto :=
  repeat match goal with
  | |- lands_in _ _ (with_tempdir _) => apply lands_with_tempdir; intros ?
  | |- lands_in _ ?d (chdir ?d) => apply lands_chdir
  | |- lands_in _ _ (bind _ _) => apply lands_bind; intros ?
  end.

Ltac restores_auto :=
  repeat match goal with
  | |- restores _ (bind getcwd _) => apply restores_getcwd; intros ?; lands_auto
  | |- restores _ (bind _ _) => apply restores_bind; [|intros ?]
  | |- restores _ (with_tempdir _) => apply restores_with_tempdir; intros ?
  | |- restores _ (for_each _ _) => apply restores_for_each; intros ?
  | |- restores _ (if ?b then _ else _) => destruct b
  | |- restores _ (match ?x with _ => _ end) => destruct x
  | |- restores _ (pjoin _ _) => apply keeps_restores, keeps_pjoin
  | |- restores _ (run _ _ _ _) => apply keeps_restores, keeps_run
  | |- restores _ _ => apply keeps_restores; intros ?; reflexivity
  end.

(** C8 (as amended): when the build step returns normally, the working
    directory is the one it started in; when it ends with the
    [CalledProcessError] of a checked subprocess (only the non-Windows path
    starts any), the working directory is still the unpacked source tree it
    changed into. *)
Theorem build_hdf5_restores_cwd :
  forall w s version hdf5_file install_path cmake_generator use_prefix with_mpi,
  let o := build_hdf5 version hdf5_file install_path cmake_generator use_prefix with_mpi w s in
  (res_of o = Ok tt -> cwd (st_of o) = cwd s) /\
  (forall rc a, res_of o = Err (CalledProcessError rc a) ->
     is_win (platform w) = false /\
     cwd (st_of o) = get_unpacked_path (platform w) version (tmp_name (tmp_count s))).
Proof.
  intros w s version hdf5_file install_path cmake_generator use_prefix with_mpi o.
  split.
  - assert (H : restores w (build_hdf5 version hdf5_file install_path cmake_generator
                              use_prefix with_mpi)).
    { unfold build_hdf5; restores_auto. }
    apply H.
  - intros rc a; subst o.
    cbv beta iota zeta delta [build_hdf5 run_build_cmd get_autotools_cmds
      with_tempdir bind get_platform emit print_err print_out getcwd chdir run
      ret raise check_returncode as_strs for_each stdout_text readable evs_of
      res_of st_of proc_rc proc_args proc_stdout fst snd cwd fs tmp_count].
    destruct (is_win (platform w)) eqn:Hw; cbn.
    + destruct (holds_archive w hdf5_file); cbn; discriminate.
    + destruct install_path, with_mpi, (holds_archive w hdf5_file); cbn;
        repeat match goal with |- context [if ?b then _ else _] => destruct b; cbn end;
        intros H; try discriminate; split; reflexivity.
Qed.

(** Witness of C8: the Linux build of 1.8.17 into [/tmp/out] succeeds and
    ends back in [/home/ci]; when [make install] exits with 2 it ends in the
    unpacked tree. *)
Lemma build_hdf5_restores_cwd_witness :
  let f := BodyOf (hdf5_url "linux" "1.8.17") in
  let s := start "/home/ci" nothing_exists in
  let w1 := good_world "linux" linux_env in
  let w2 := failing_cmd w1 ["make"; "install"] 2 in
  res_of (build_hdf5 "1.8.17" f (Some "/tmp/out") None false false w1 s) = Ok tt /\
  cwd (st_of (build_hdf5 "1.8.17" f (Some "/tmp/out") None false false w1 s)) = "/home/ci" /\
  res_of (build_hdf5 "1.8.17" f (Some "/tmp/out") None false false w2 s) =
    Err (CalledProcessError 2 ["make"; "install"]) /\
  cwd (st_of (build_hdf5 "1.8.17" f (Some "/tmp/out") None false false w2 s)) =
    get_unpacked_path "linux" "1.8.17" (tmp_name 0).
Proof.
  intros f s w1 w2.
  assert (Hok : res_of (build_hdf5 "1.8.17" f (Some "/tmp/out") None false false w1 s) = Ok tt)
    by (vm_compute; reflexivity).
  assert (Herr : res_of (build_hdf5 "1.8.17" f (Some "/tmp/out") None false false w2 s) =
                 Err (CalledProcessError 2 ["make"; "install"]))
    by (vm_compute; reflexivity).
  split; [exact Hok |].
  split; [exact (proj1 (build_hdf5_restores_cwd w1 s "1.8.17" f (Some "/tmp/out") None
                          false false) Hok) |].
  split; [exact Herr |].
  exact (proj2 (proj2 (build_hdf5_restores_cwd w2 s "1.8.17" f (Some "/tmp/out") None
                         false false) _ _ Herr)).
Defined.

(** C8: when [make install] fails, the build step ends with the exception
    while the working directory is still the unpacked source tree. *)
Lemma build_hdf5_abort_keeps_build_dir :
  let w := failing_cmd (good_world "linux" linux_env) ["make"; "install"] 2 in
  let o := build_hdf5 "1.8.17" (BodyOf (hdf5_url "linux" "1.8.17")) (Some "/tmp/out")
             None false false w (start "/home/ci" nothing_exists) in
  res_of o = Err (CalledProcessError 2 ["make"; "install"]) /\
  cwd (st_of o) = "/tmp/tmp0/hdf5-1.8.17" /\
  cwd (st_of o) <> "/home/ci".
Proof. vm_compute. split; [reflexivity | split; [reflexivity | discriminate]]. Qed.

(** * Further properties of the script *)

(** A loop whose body only emits one event per item. *)
Lemma for_each_emits {A} (l : list A) (f : A -> M unit) (h : A -> event) w s :
  (forall x s0, f x w s0 = (Ok tt, s0, [h x])) ->
  for_each l f w s = (Ok tt, s, map h l).
Proof.
  intros Hf; induction l as [|x l IH]; [reflexivity |].
  cbn; unfold bind; rewrite Hf, IH; reflexivity.
Qed.

(** The events of [main]'s listing of the install path. *)
Definition listing_events (w : world) (p : string) : list event :=
  (EPrint true "hdf5 files: " :: EWalk p ::
   map (fun '(dirpath, file) => EPrint false (" * " ++ join_str (platform w) dirpath [file]))
     (walk_result w p))%list.

(** The configure command of the autotools path, as strings. *)
Definition configure_args (install_path : string) (with_mpi : bool) : list string :=
  (["./configure"; "--prefix"; install_path] ++
   (if with_mpi then ["--enable-parallel"] else []))%list.

(** X1: on a non-Windows platform with an install path, a downloaded file
    holding the tarball and every command starting and exiting 0,
    [build_hdf5] unpacks the tarball, changes into
    [<extract>/hdf5-<version>], runs chmod, autogen.sh, configure (with
    [--enable-parallel] exactly when MPI is on), make and make install there,
    prints ["None"] for the uncaptured output of each make, changes back and
    removes both temporary directories.  The shell carries out ["make"]
    twice and never ["make install"]. *)
Theorem build_hdf5_autotools_log :
  forall w s version f p cmake_generator use_prefix with_mpi,
  is_win (platform w) = false ->
  holds_archive w f = true ->
  launches w ["chmod"; "+x"; "autogen.sh"] = true ->
  launches w ["./autogen.sh"] = true ->
  launches w (configure_args p with_mpi) = true ->
  returncode w ["chmod"; "+x"; "autogen.sh"] = 0%Z ->
  returncode w ["./autogen.sh"] = 0%Z ->
  returncode w (configure_args p with_mpi) = 0%Z ->
  returncode w ["make"] = 0%Z ->
  returncode w ["make"; "install"] = 0%Z ->
  let d := tmp_name (tmp_count s) in
  let d' := tmp_name (S (tmp_count s)) in
  let src := get_unpacked_path (platform w) version d in
  let o := build_hdf5 version f (Some p) cmake_generator use_prefix with_mpi w s in
  res_of o = Ok tt /\
  evs_of o =
    [EMkdtemp d; EUntar d; EMkdtemp d'; EChdir src;
     ERun ["chmod"; "+x"; "autogen.sh"] false src;
     ERun ["./autogen.sh"] false src;
     EPrint true ("Configuring HDF5 version " ++ version ++ "...");
     EPrint true (String.concat " " (configure_args p with_mpi));
     ERun (configure_args p with_mpi) false src;
     EPrint false (captured_output w (configure_args p with_mpi));
     EPrint true ("Building HDF5 version " ++ version ++ "...");
     EPrint true "make"; ERun ["make"] true src; EPrint false "None";
     EPrint true "make install"; ERun ["make"; "install"] true src; EPrint false "None";
     EPrint true ("Installed HDF5 version " ++ version ++ " to " ++ p);
     EChdir (cwd s); ERmtree d'; ERmtree d] /\
  executed_commands (platform w) (evs_of o) =
    ["chmod +x autogen.sh"; "./autogen.sh"; String.concat " " (configure_args p with_mpi);
     "make"; "make"].
Proof.
  intros w s version f p cmake_generator use_prefix with_mpi Hwin Hf L1 L2 L3
    H1 H2 H3 H4 H5 d d' src o.
  subst o d d' src.
  destruct with_mpi; unfold configure_args in *; cbn in H3, L3;
    cbv beta iota zeta delta [build_hdf5 run_build_cmd get_autotools_cmds
      with_tempdir bind get_platform emit print_err print_out getcwd chdir run
      ret raise check_returncode as_strs for_each stdout_text readable evs_of res_of
      proc_rc proc_args proc_stdout fst snd cwd fs tmp_count];
    rewrite Hwin, Hf; cbn;
    repeat (first [rewrite L1 | rewrite L2 | rewrite L3 | rewrite H1 | rewrite H2
                  | rewrite H3 | rewrite H4 | rewrite H5]; cbn);
    (split; [reflexivity | split; [reflexivity |]]);
    unfold executed_command, exec_argv; cbn; rewrite Hwin; reflexivity.
Qed.

Lemma build_hdf5_autotools_log_witness :
  is_win (platform (good_world "linux" [])) = false /\
  res_of (build_hdf5 "1.10.2" (BodyOf (hdf5_url "linux" "1.10.2")) (Some "/opt/hdf5")
            None false true (good_world "linux" []) (start "/home/ci" nothing_exists))
    = Ok tt.
Proof.
  split; [reflexivity |].
  exact (proj1 (build_hdf5_autotools_log (good_world "linux" [])
                  (start "/home/ci" nothing_exists) "1.10.2"
                  (BodyOf (hdf5_url "linux" "1.10.2")) "/opt/hdf5" None false true
                  eq_refl eq_refl eq_refl eq_refl eq_refl
                  eq_refl eq_refl eq_refl eq_refl eq_refl)).
Defined.

(** X2: on a non-Windows platform without an install path (the downloaded
    file holding the tarball, chmod and autogen.sh starting and exiting 0),
    the configure command holds [None], so [' '.join(cfg_cmd)] raises
    [TypeError] right after chmod and autogen.sh have run: configure and
    make never run, and both temporary directories are still removed. *)
Theorem build_hdf5_autotools_no_prefix_type_error :
  forall w s version f cmake_generator use_prefix with_mpi,
  is_win (platform w) = false ->
  holds_archive w f = true ->
  launches w ["chmod"; "+x"; "autogen.sh"] = true ->
  launches w ["./autogen.sh"] = true ->
  returncode w ["chmod"; "+x"; "autogen.sh"] = 0%Z ->
  returncode w ["./autogen.sh"] = 0%Z ->
  let d := tmp_name (tmp_count s) in
  let d' := tmp_name (S (tmp_count s)) in
  let src := get_unpacked_path (platform w) version d in
  let o := build_hdf5 version f None cmake_generator use_prefix with_mpi w s in
  res_of o = Err TypeError /\
  evs_of o =
    [EMkdtemp d; EUntar d; EMkdtemp d'; EChdir src;
     ERun ["chmod"; "+x"; "autogen.sh"] false src;
     ERun ["./autogen.sh"] false src;
     EPrint true ("Configuring HDF5 version " ++ version ++ "...");
     ERmtree d'; ERmtree d].
Proof.
  intros w s version f cmake_generator use_prefix with_mpi Hwin Hf L1 L2 H1 H2 d d' src o.
  subst o d d' src.
  destruct with_mpi;
    cbv beta iota zeta delta [build_hdf5 run_build_cmd get_autotools_cmds
      with_tempdir bind get_platform emit print_err print_out getcwd chdir run
      ret raise check_returncode as_strs for_each stdout_text readable evs_of res_of
      proc_rc proc_args proc_stdout fst snd cwd fs tmp_count];
    rewrite Hwin, Hf; cbn;
    repeat (first [rewrite L1 | rewrite L2 | rewrite H1 | rewrite H2]; cbn);
    split; reflexivity.
Qed.

Lemma build_hdf5_autotools_no_prefix_type_error_witness :
  is_win (platform (good_world "linux" [])) = false /\
  res_of (build_hdf5 "1.8.17" (BodyOf (hdf5_url "linux" "1.8.17")) None None false false
            (good_world "linux" []) (start "/home/ci" nothing_exists)) = Err TypeError.
Proof.
  split; [reflexivity |].
  exact (proj1 (build_hdf5_autotools_no_prefix_type_error (good_world "linux" [])
                  (start "/home/ci" nothing_exists) "1.8.17"
                  (BodyOf (hdf5_url "linux" "1.8.17")) None false false
                  eq_refl eq_refl eq_refl eq_refl eq_refl eq_refl)).
Defined.

Lemma bind_get_platform {A} (f : string -> M A) w s :
  bind get_platform f w s = f (platform w) w s.
Proof.
  unfold bind, get_platform; cbn.
  destruct (f (platform w) w s) as [[r s1] e]; reflexivity.
Qed.

(** The log of [with tempfile.TemporaryDirectory() as d: body] followed by
    the rest of a block: the directory is removed whatever the body does,
    and the rest only runs after a normal exit. *)
Lemma with_tempdir_bracket {A B} (body : string -> M A) (f : A -> M B) w s :
  let d := tmp_name (tmp_count s) in
  exists mid,
    evs_of (bind (with_tempdir body) f w s) =
      (EMkdtemp d :: mid ++ ERmtree d ::
       match with_tempdir body w s with
       | (Ok a, s1, _) => evs_of (f a w s1)
       | (Err _, _, _) => []
       end)%list.
Proof.
  intros d; rewrite evs_bind; unfold with_tempdir; fold d.
  destruct (body d w _) as [[r s2] e].
  exists e; cbn; rewrite <- app_assoc; reflexivity.
Qed.

(** X3: on every platform and for every outcome, the log of [build_hdf5]
    starts with the creation of the extraction directory and ends with its
    removal: on Windows the build always fails inside the [with] block, so
    the dll copy after it never runs. *)
Theorem build_hdf5_removes_extract_dir :
  forall w s version hdf5_file install_path cmake_generator use_prefix with_mpi,
  let d := tmp_name (tmp_count s) in
  exists mid,
    evs_of (build_hdf5 version hdf5_file install_path cmake_generator use_prefix with_mpi w s) =
    (EMkdtemp d :: mid ++ [ERmtree d])%list.
Proof.
  intros w s version hdf5_file install_path cmake_generator use_prefix with_mpi d.
  unfold build_hdf5; rewrite bind_get_platform; cbv beta zeta.
  match goal with
  | |- context [evs_of (bind (with_tempdir ?b) ?f w s)] =>
      destruct (with_tempdir_bracket b f w s) as [mid Hm]; rewrite Hm
  end.
  exists mid; do 3 f_equal.
  destruct (is_win (platform w)) eqn:Hw.
  - cbv beta iota zeta delta [with_tempdir bind emit raise ret readable]; cbn.
    destruct (holds_archive w hdf5_file); reflexivity.
  - match goal with
    | |- context [with_tempdir ?b w s] => destruct (with_tempdir b w s) as [[[a|e] s1] e1]
    end; reflexivity.
Qed.

(** What [main_config] records: the creation of a missing install
    directory, then the VS2008 patch script for the token ["9-64"]. *)
Definition makedirs_events (w : world) (s : state) : list event :=
  match environ w "HDF5_DIR" with
  | Some p => if fs s p then [] else [EMakedirs p]
  | None => []
  end.

Definition patch_events (w : world) (s : state) : list event :=
  match environ w "HDF5_VSVERSION" with
  | Some vs =>
      if String.eqb vs "9-64" then
        if launches w [VS2008_PATCH] then [ERun [VS2008_PATCH] false (cwd s)] else []
      else []
  | None => []
  end.

(** The configuration the environment describes. *)
Definition config_of_env (w : world) : result config :=
  let mk g := mkConfig (environ w "HDF5_DIR") (version_of w) g
                 (match environ w "H5PY_USE_PREFIX" with Some _ => true | None => false end)
                 (match environ w "HDF5_MPI" with Some v => String.eqb v "ON" | None => false end) in
  match environ w "HDF5_VSVERSION" with
  | Some vs =>
      match VSVERSION_TO_GENERATOR vs with
      | Some g =>
          if String.eqb vs "9-64" && negb (launches w [VS2008_PATCH])
          then Err FileNotFoundError else Ok (mk (Some g))
      | None => Err KeyError
      end
  | None => Ok (mk None)
  end.

Ltac main_config_cases w s :=
  unfold main_config, bind, getenv, ret, raise, path_exists, makedirs, run,
    res_of, evs_of, st_of;
  cbn;
  repeat match goal with
         | |- context [match environ w ?k with _ => _ end] => destruct (environ w k) eqn:?; cbn
         | |- context [if fs s ?p then _ else _] => destruct (fs s p) eqn:?; cbn
         | |- context [match VSVERSION_TO_GENERATOR ?v with _ => _ end] =>
             destruct (VSVERSION_TO_GENERATOR v) eqn:?; cbn
         | |- context [if String.eqb ?a ?b then _ else _] => destruct (String.eqb a b) eqn:?; cbn
         | |- context [if launches w ?a then _ else _] => destruct (launches w a) eqn:?; cbn
         end.

Lemma main_config_evs w s :
  evs_of (main_config w s) = (makedirs_events w s ++ patch_events w s)%list.
Proof.
  unfold makedirs_events, patch_events; main_config_cases w s;
    repeat match goal with E : environ w _ = _ |- _ => rewrite E; clear E end;
    repeat match goal with E : fs s _ = _ |- _ => rewrite E; clear E end;
    repeat match goal with E : String.eqb _ _ = _ |- _ => rewrite E; clear E end;
    repeat match goal with E : launches w _ = _ |- _ => rewrite E; clear E end;
    try reflexivity;
    (* a token outside the table is not ["9-64"] *)
    match goal with
    | E : VSVERSION_TO_GENERATOR ?v = None, B : String.eqb ?v "9-64" = true |- _ =>
        apply String.eqb_eq in B; subst v; discriminate E
    end.
Qed.

Lemma main_config_res w s : res_of (main_config w s) = config_of_env w.
Proof.
  unfold config_of_env, version_of; main_config_cases w s;
    repeat match goal with E : environ w _ = _ |- _ => rewrite E; clear E end;
    repeat match goal with E : VSVERSION_TO_GENERATOR _ = _ |- _ => rewrite E; clear E end;
    repeat match goal with E : String.eqb _ _ = _ |- _ => rewrite E; clear E end;
    repeat match goal with E : launches w _ = _ |- _ => rewrite E; clear E end;
    reflexivity.
Qed.

Lemma main_config_keeps_fs w s q :
  fs s q = true -> fs (st_of (main_config w s)) q = true /\ cwd (st_of (main_config w s)) = cwd s.
Proof.
  intros Hq; main_config_cases w s; rewrite ?Hq, ?orb_true_r; auto.
Qed.




Lemma main_body_no_makedirs w c :
  never w (fun x => forall q, x <> EMakedirs q) (main_body c).
Proof.
  unfold main_body, build_hdf5, run_build_cmd.
  never_auto ltac:(first [intros ? ?; discriminate | idtac]).
Qed.

(** X6: [main] calls [os.makedirs] exactly when [HDF5_DIR] names a path
    that does not exist yet, with that path, and makes no other
    [os.makedirs] call (the temporary directories come from
    [TemporaryDirectory]). *)
Theorem main_creates_missing_install_dir : forall w s p q,
  environ w "HDF5_DIR" = Some p ->
  In (EMakedirs q) (evs_of (main w s)) <-> q = p /\ fs s p = false.
Proof.
  intros w s p q Hp.
  unfold main; rewrite evs_bind, main_config_evs, !in_app_iff.
  unfold makedirs_events, patch_events; rewrite Hp.
  assert (Hb : forall c s1, ~ In (EMakedirs q) (evs_of (main_body c w s1)))
    by (intros c s1 Hin; exact (main_body_no_makedirs w c s1 _ Hin q eq_refl)).
  split.
  - intros [[Hm|Hr]|Hx].
    + destruct (fs s p) eqn:Hf; cbn in Hm; [destruct Hm | destruct Hm as [Hm|[]]].
      now injection Hm as ->.
    + destruct (environ w "HDF5_VSVERSION"); [|destruct Hr].
      destruct (String.eqb _ _); [destruct (launches w _)|]; cbn in Hr;
        first [destruct Hr as [Hr|[]]; discriminate Hr | destruct Hr].
    + destruct (main_config w s) as [[[c|e] s1] e1]; [|destruct Hx].
      exfalso; exact (Hb c s1 Hx).
  - intros [-> ->]; left; left; now left.
Qed.

Lemma main_creates_missing_install_dir_witness :
  environ (good_world "linux" linux_env) "HDF5_DIR" = Some "/tmp/out" /\
  In (EMakedirs "/tmp/out") (evs_of (main (good_world "linux" linux_env)
                                      (start "/home/ci" nothing_exists))).
Proof.
  split; [reflexivity |].
  apply (main_creates_missing_install_dir (good_world "linux" linux_env)
           (start "/home/ci" nothing_exists) "/tmp/out" "/tmp/out" eq_refl).
  split; reflexivity.
Defined.



Lemma ends_with_bind {A B} (m : M A) (f : A -> M B) w s (tail : list event) b :
  res_of (bind m f w s) = Ok b ->
  (forall a s1 e1, m w s = (Ok a, s1, e1) -> res_of (f a w s1) = Ok b ->
     exists pre, evs_of (f a w s1) = (pre ++ tail)%list) ->
  exists pre, evs_of (bind m f w s) = (pre ++ tail)%list.
Proof.
  rewrite res_bind, evs_bind; intros Hr Hf.
  destruct (m w s) as [[[a|e] s1] e1] eqn:Em; [|discriminate Hr].
  destruct (Hf a s1 e1 eq_refl Hr) as [pre Hpre].
  exists (e1 ++ pre)%list; cbn; rewrite Hpre; apply app_assoc.
Qed.

(** X8: when [HDF5_DIR] names a path [p] and [main] returns normally
    (from the cache or after a build), its log ends with the listing of
    [p]: the header, the walk of [p] and one [" * <dirpath>/<file>"] line
    per file found, in the order of the walk. *)
Theorem main_ends_with_listing : forall w s p,
  environ w "HDF5_DIR" = Some p ->
  res_of (main w s) = Ok tt ->
  exists pre, evs_of (main w s) = (pre ++ listing_events w p)%list.
Proof.
  intros w s p Hp Hok; unfold main.
  apply (ends_with_bind _ _ _ _ _ _ Hok); intros c s1 e1 Ec Hb.
  assert (Hc : cfg_install_path c = Some p).
  { pose proof (main_config_res w s) as Hr; rewrite Ec in Hr; cbn in Hr.
    unfold config_of_env in Hr; rewrite Hp in Hr.
    repeat match type of Hr with context [match ?x with _ => _ end] => destruct x end;
      try discriminate Hr; injection Hr as ->; reflexivity. }
  revert Hb; unfold main_body; rewrite Hc; cbv beta zeta; intros Hb.
  apply (ends_with_bind _ _ _ _ _ _ Hb); intros cached s2 e2 _ Hb2.
  apply (ends_with_bind _ _ _ _ _ _ Hb2); intros u s3 e3 _ _.
  exists []; cbv beta iota zeta delta [bind print_err emit get_platform walk].
  rewrite (for_each_emits _ _
             (fun '(dirpath, file) => EPrint false (" * " ++ join_str (platform w) dirpath [file])))
    by (intros [a b] s0; reflexivity).
  reflexivity.
Qed.

Lemma main_ends_with_listing_witness :
  let w := good_world "linux" linux_env in
  let s := start "/home/ci" nothing_exists in
  environ w "HDF5_DIR" = Some "/tmp/out" /\
  res_of (main w s) = Ok tt /\
  exists pre, evs_of (main w s) = (pre ++ listing_events w "/tmp/out")%list.
Proof.
  intros w s.
  assert (Hok : res_of (main w s) = Ok tt) by (vm_compute; reflexivity).
  split; [reflexivity | split; [exact Hok |]].
  exact (main_ends_with_listing w s "/tmp/out" eq_refl Hok).
Defined.

(** The suffixes of a string, itself first. *)
Fixpoint suffixes (s : string) : list string :=
  s :: match s with EmptyString => [] | String _ r => suffixes r end.

Lemma append_in_suffixes a t : In t (suffixes (a ++ t)).
Proof. induction a as [|c a IH]; [destruct t; now left | cbn; now right]. Qed.

Lemma unpacked_path_tail platform version extract_point :
  exists a t,
    get_unpacked_path platform version extract_point = a ++ t /\
    (t = "hdf5-" ++ version \/ t = "/hdf5-" ++ version \/ t = "\hdf5-" ++ version).
Proof.
  unfold get_unpacked_path, join_str, join2, format; cbn.
  destruct (is_win platform); cbn;
    [destruct (String.eqb extract_point "" || ends_with_sep true extract_point)
    | destruct (String.eqb extract_point "" || ends_with_sep false extract_point)];
    eexists; eexists; (split; [reflexivity |]); auto.
Qed.

(** The CMake flag of the library symbol prefix. *)
Definition prefix_flag : string := "-DHDF5_EXTERNAL_LIB_PREFIX=h5py_".

Lemma unpacked_path_not_prefix_flag platform version extract_point :
  get_unpacked_path platform version extract_point <> prefix_flag.
Proof.
  destruct (unpacked_path_tail platform version extract_point) as [a [t [Ht Hv]]].
  rewrite Ht; intros Hf.
  pose proof (append_in_suffixes a t) as Hs; rewrite Hf in Hs.
  unfold prefix_flag in Hs; destruct Hv as [->|[->| ->]]; cbn in Hs;
    repeat (destruct Hs as [Hs|Hs]; [discriminate Hs |]); destruct Hs.
Qed.

(** X9: the configure command of [get_cmake_cmds] holds the flag
    [-DHDF5_EXTERNAL_LIB_PREFIX=h5py_] exactly when [use_prefix] is true, as
    long as the generator name is not that flag itself: neither the fixed
    flags, nor the install-prefix argument, nor the unpacked source path can
    be it. *)
Theorem cmake_prefix_flag_iff_use_prefix :
  forall platform version install_path cmake_generator use_prefix hdf5_extract_path,
  cmake_generator <> Some prefix_flag ->
  In (PStr prefix_flag)
     (fst (get_cmake_cmds platform version install_path cmake_generator use_prefix
             hdf5_extract_path)) <->
  use_prefix = true.
Proof.
  intros platform version install_path cmake_generator use_prefix ex Hg.
  unfold get_cmake_cmds; cbn [fst]; rewrite in_map_iff.
  split.
  - intros [x [Hx Hin]]; injection Hx as ->.
    rewrite !in_app_iff in Hin.
    destruct Hin as [Hin|[Hin|[Hin|Hin]]].
    + cbn in Hin; repeat (destruct Hin as [Hin|Hin]; [discriminate Hin |]); destruct Hin.
    + destruct Hin as [Hin|[Hin|[]]].
      * unfold prefix_flag in Hin; destruct install_path; cbn in Hin; discriminate Hin.
      * exfalso; exact (unpacked_path_not_prefix_flag platform version ex Hin).
    + destruct cmake_generator as [g|]; [|destruct Hin].
      destruct Hin as [Hin|[Hin|[]]]; [discriminate Hin | now subst g].
    + destruct use_prefix; [reflexivity | destruct Hin].
  - intros ->; exists prefix_flag; split; [reflexivity |].
    rewrite !in_app_iff; right; right; right; now left.
Qed.

Lemma cmake_prefix_flag_iff_use_prefix_witness :
  None <> Some prefix_flag /\
  In (PStr prefix_flag)
     (fst (get_cmake_cmds "win32" "1.10.2" (Some "C:\hdf5") None true "C:\tmp")).
Proof.
  split; [discriminate |].
  apply (cmake_prefix_flag_iff_use_prefix "win32" "1.10.2" (Some "C:\hdf5") None true "C:\tmp");
    [discriminate | reflexivity].
Defined.

(** The URLs requested in a log, in order. *)
Fixpoint gets (evs : list event) : list string :=
  match evs with
  | [] => []
  | EGet u :: r => u :: gets r
  | _ :: r => gets r
  end.

Definition no_get (x : event) : Prop := forall u, x <> EGet u.

Lemma gets_app a b : gets (a ++ b) = (gets a ++ gets b)%list.
Proof. induction a as [|x a IH]; [reflexivity |]; destruct x; cbn; now rewrite ?IH. Qed.

Lemma gets_never {A} w (m : M A) s : never w no_get m -> gets (evs_of (m w s)) = [].
Proof.
  intros H; specialize (H s); induction (evs_of (m w s)) as [|x l IH]; [reflexivity |].
  destruct x; cbn;
    try (apply IH; intros y Hy; apply H; now right).
  exfalso; apply (H _ (or_introl eq_refl) url); reflexivity.
Qed.

Lemma gets_bind_quiet_rest {A B} w (m : M A) (f : A -> M B) s :
  (forall a, never w no_get (f a)) ->
  gets (evs_of (bind m f w s)) = gets (evs_of (m w s)).
Proof.
  intros Hf; rewrite evs_bind, gets_app.
  destruct (m w s) as [[[a|e] s1] e1]; cbn; [rewrite gets_never by apply Hf |]; apply app_nil_r.
Qed.

Lemma download_hdf5_gets w version s :
  gets (evs_of (download_hdf5 version w s)) = [hdf5_url (platform w) version].
Proof.
  unfold download_hdf5, bind, get_platform, print_err, emit, requests_get, raise; cbn.
  destruct (http_error (http_status w (hdf5_url (platform w) version))); reflexivity.
Qed.

Ltac no_get_auto := never_auto ltac:(first [intros ? ?; discriminate | idtac]).

(** X10: [main] requests at most one URL.  When it requests one, it is the
    archive URL of the configured version, [HDF5_DIR] is set, and
    [<HDF5_DIR>/lib/hdf5.dll] did not exist at the start: the download only
    happens on a cache miss. *)
Theorem main_downloads_at_most_once : forall w s,
  gets (evs_of (main w s)) = [] \/
  (gets (evs_of (main w s)) = [hdf5_url (platform w) (version_of w)] /\
   exists p, environ w "HDF5_DIR" = Some p /\
             fs s (join_str (platform w) p ["lib"; "hdf5.dll"]) = false).
Proof.
  intros w s; unfold main.
  rewrite evs_bind, gets_app, (gets_never w main_config s) by apply main_config_no_get.
  pose proof (main_config_res w s) as Hr.
  pose proof (main_config_keeps_fs w s) as Hk.
  unfold res_of, st_of in *.
  destruct (main_config w s) as [[[c|e] s1] e1]; cbn [app fst snd] in *; [| now left].
  assert (Hc : cfg_install_path c = environ w "HDF5_DIR" /\ cfg_version c = version_of w).
  { unfold config_of_env in Hr.
    repeat match type of Hr with context [match ?x with _ => _ end] => destruct x end;
      try discriminate Hr; injection Hr as ->; split; reflexivity. }
  destruct Hc as [Hc Hv].
  unfold main_body.
  rewrite evs_bind, gets_app, (gets_never w (hdf5_cached _) s1) by (unfold hdf5_cached; no_get_auto).
  destruct (cfg_install_path c) as [p|] eqn:Hip; [| now left].
  set (art := join_str (platform w) p ["lib"; "hdf5.dll"]).
  assert (Hca : hdf5_cached (Some p) w s1 = (Ok (fs s1 art), s1, [])).
  { unfold hdf5_cached, bind, pjoin, get_platform, ret, path_exists, art; cbn -[join_str].
    destruct (fs s1 (join_str (platform w) p ["lib"; "hdf5.dll"])); reflexivity. }
  rewrite Hca; cbn [app].
  rewrite gets_bind_quiet_rest by (intros ?; no_get_auto).
  destruct (fs s1 art) eqn:Hf; cbn [negb].
  - now left.
  - right; unfold with_tempfile.
    rewrite gets_bind_quiet_rest by (intros ?; unfold build_hdf5, run_build_cmd; no_get_auto).
    rewrite download_hdf5_gets, Hv; split; [reflexivity |].
    exists p; split; [congruence |].
    destruct (fs s art) eqn:Hs; [| exact Hs].
    destruct (Hk art Hs) as [Hs1 _]; fold art in Hs1; congruence.
Qed.
